(** * ompl/base/StateValidityChecker.h

    A shallow embedding of the state validity checker interface of OMPL
    ([ompl::base::StateValidityCheckerSpecs], [ompl::base::StateValidityChecker]
    and [ompl::base::AllValidStateValidityChecker]) together with the
    properties its default method bodies enjoy.

    Conventions of the embedding.

    - [double] is IEEE 754 binary64, i.e. Rocq's primitive [float].
    - A raw pointer ([const State *], [SpaceInformation *]) is a value of
      [ptr]: either [nullptr] or the address of an object.  The header never
      dereferences a pointer; only the code of a derived class does.
    - The memory the code of a derived class may read and update (the [State]
      objects behind the pointers, caches, counters) is a type [World] over
      which the header is parametric.
    - A virtual member function is a computation [M World A]: it receives the
      world, and either returns a value and the world it leaves, or does not
      return a value at all ([None]: the overriding code threw, faulted or
      did not terminate).
    - The output parameters [double &dist], [State *gradient] and
      [bool &gradientAvailable] are caller-owned slots, distinct from
      anything else the callee reaches.  A function with output parameters
      receives the contents the slots have at the call and returns, after its
      C++ return value, the contents they have when it returns.
    - Virtual dispatch: a checker carries the table of the members its
      most-derived class overrides; a member that is not overridden runs the
      body written in the base class, whose own calls are dispatched again. *)

From Stdlib Require Import Floats.PrimFloat.
From Stdlib Require Import List NArith Bool Permutation.
Import ListNotations.

Set Implicit Arguments.

(** ** Scalars and pointers *)

Definition double : Set := float.

Inductive ptr : Set :=
| nullptr : ptr
| addr (a : N) : ptr.

(** [SpaceInformationPtr]: a shared pointer; [get] is the raw pointer it
    manages.  (The header only forward-declares the class.) *)
Record SpaceInformationPtr : Set := { get : ptr }.

(** ** Computations over the world *)

Definition M (World A : Type) : Type := World -> option (A * World).

Definition ret {World A : Type} (a : A) : M World A :=
  fun w => Some (a, w).

Definition bind {World A B : Type} (m : M World A) (k : A -> M World B)
  : M World B :=
  fun w => match m w with
           | Some (a, w') => k a w'
           | None => None
           end.

Declare Scope method_scope.
Delimit Scope method_scope with method.
Notation "x <- m ;; k" := (bind m (fun x => k))
  (at level 61, m at next level, right associativity) : method_scope.
Notation "' pat <- m ;; k" := (bind m (fun x => match x with pat => k end))
  (at level 61, pat pattern, m at next level, right associativity)
  : method_scope.
Open Scope method_scope.

(** [returns m w a w']: started in [w], [m] returns [a] and leaves [w']. *)
Definition returns {World A : Type} (m : M World A) (w : World) (a : A)
  (w' : World) : Prop :=
  m w = Some (a, w').

(** ** StateValidityCheckerSpecs *)

Record StateValidityCheckerSpecs : Set := mkSpecs {
  hasExactClearance : bool;
  hasBoundedApproximateClearance : bool;
  hasApproximateClearance : bool;
  hasGradientComputation : bool
}.

(** The constructor's member initialiser list. *)
Definition StateValidityCheckerSpecs_ctor : StateValidityCheckerSpecs :=
  {| hasExactClearance := false;
     hasBoundedApproximateClearance := false;
     hasApproximateClearance := false;
     hasGradientComputation := false |}.

Section Checker.

(** [State] is declared in ompl/base/State.h, which the header only
    includes; it is opaque here. *)
Context {State World : Type}.

(** The object behind [State *gradient]: [None] when the caller passed a
    null pointer, [Some g] when it designates a state holding [g]. *)
Definition GradientSlot : Type := option State.

(** The members a class derived from [StateValidityChecker] defines, each
    given by what it computes (the calls it makes to other members of the
    object being those of its own class).  The one-argument [isValid] is
    pure virtual, so every concrete class has it; each of the other four is
    [None] when the class inherits the body of the base class. *)
Record Overriders : Type := {
  ov_isValid : ptr -> M World bool;
  ov_isValid_dist : option (ptr -> double -> M World (bool * double));
  ov_isValid_grad :
    option (ptr -> double -> GradientSlot -> bool ->
            M World (bool * double * GradientSlot * bool));
  ov_clearance : option (ptr -> M World double);
  ov_clearance_grad :
    option (ptr -> GradientSlot -> bool ->
            M World (double * GradientSlot * bool))
}.

(** An object of (a class derived from) [StateValidityChecker]: the two
    protected data members and the virtual table. *)
Record StateValidityChecker : Type := {
  si_ : ptr;
  specs_ : StateValidityCheckerSpecs;
  vptr : Overriders
}.

(** *** Constructors *)

(** [StateValidityChecker(SpaceInformation* si) : si_(si) {}]; [specs_] is
    default-constructed.  [ov] is the table of the class being built. *)
Definition StateValidityChecker_ctor (ov : Overriders) (si : ptr)
  : StateValidityChecker :=
  {| si_ := si; specs_ := StateValidityCheckerSpecs_ctor; vptr := ov |}.

(** [StateValidityChecker(const SpaceInformationPtr &si) : si_(si.get()) {}] *)
Definition StateValidityChecker_ctor_shared (ov : Overriders)
  (si : SpaceInformationPtr) : StateValidityChecker :=
  {| si_ := get si; specs_ := StateValidityCheckerSpecs_ctor; vptr := ov |}.

(** *** Virtual member functions *)

Section Members.

Variable this : StateValidityChecker.

(** [virtual bool isValid(const State *state) const = 0;] *)
Definition isValid (state : ptr) : M World bool :=
  ov_isValid (vptr this) state.

(** [virtual double clearance(const State *state) const
     { return 0.0; }] *)
Definition default_clearance (state : ptr) : M World double :=
  ret 0%float.

Definition clearance (state : ptr) : M World double :=
  match ov_clearance (vptr this) with
  | Some f => f state
  | None => default_clearance state
  end.

(** [virtual double clearance(const State *state, State *gradient,
                              bool &gradientAvailable) const
     { gradientAvailable = false; return clearance(state); }] *)
Definition default_clearance_grad (state : ptr) (gradient : GradientSlot)
  (gradientAvailable : bool) : M World (double * GradientSlot * bool) :=
  let gradientAvailable := false in
  r <- clearance state ;;
  ret (r, gradient, gradientAvailable).

Definition clearance_grad (state : ptr) (gradient : GradientSlot)
  (gradientAvailable : bool) : M World (double * GradientSlot * bool) :=
  match ov_clearance_grad (vptr this) with
  | Some f => f state gradient gradientAvailable
  | None => default_clearance_grad state gradient gradientAvailable
  end.

(** [virtual bool isValid(const State *state, double &dist) const
     { dist = clearance(state); return isValid(state); }] *)
Definition default_isValid_dist (state : ptr) (dist : double)
  : M World (bool * double) :=
  dist <- clearance state ;;
  r <- isValid state ;;
  ret (r, dist).

Definition isValid_dist (state : ptr) (dist : double)
  : M World (bool * double) :=
  match ov_isValid_dist (vptr this) with
  | Some f => f state dist
  | None => default_isValid_dist state dist
  end.

(** [virtual bool isValid(const State *state, double &dist,
                          State *gradient, bool &gradientAvailable) const
     { dist = clearance(state, gradient, gradientAvailable);
       return isValid(state); }] *)
Definition default_isValid_grad (state : ptr) (dist : double)
  (gradient : GradientSlot) (gradientAvailable : bool)
  : M World (bool * double * GradientSlot * bool) :=
  '(dist, gradient, gradientAvailable) <-
     clearance_grad state gradient gradientAvailable ;;
  r <- isValid state ;;
  ret (r, dist, gradient, gradientAvailable).

Definition isValid_grad (state : ptr) (dist : double)
  (gradient : GradientSlot) (gradientAvailable : bool)
  : M World (bool * double * GradientSlot * bool) :=
  match ov_isValid_grad (vptr this) with
  | Some f => f state dist gradient gradientAvailable
  | None => default_isValid_grad state dist gradient gradientAvailable
  end.

(** [const StateValidityCheckerSpecs& getSpecs(void) const
     { return specs_; }]  (not virtual) *)
Definition getSpecs : StateValidityCheckerSpecs := specs_ this.

End Members.

(** *** AllValidStateValidityChecker *)

(** [virtual bool isValid(const State * /* state */) const { return true; }] *)
Definition AllValid_isValid (_ : ptr) : M World bool := ret true.

Definition AllValid_vtable : Overriders :=
  {| ov_isValid := AllValid_isValid;
     ov_isValid_dist := None;
     ov_isValid_grad := None;
     ov_clearance := None;
     ov_clearance_grad := None |}.

(** [AllValidStateValidityChecker(SpaceInformation* si)
      : StateValidityChecker(si) {}] *)
Definition AllValidStateValidityChecker_ctor (si : ptr)
  : StateValidityChecker :=
  StateValidityChecker_ctor AllValid_vtable si.

(** [AllValidStateValidityChecker(const SpaceInformationPtr &si)
      : StateValidityChecker(si) {}] *)
Definition AllValidStateValidityChecker_ctor_shared
  (si : SpaceInformationPtr) : StateValidityChecker :=
  StateValidityChecker_ctor_shared AllValid_vtable si.

(** *** Which members a class overrides *)

(** The class of [this] overrides only the pure virtual [isValid]. *)
Definition overrides_only_isValid (this : StateValidityChecker) : Prop :=
  ov_isValid_dist (vptr this) = None /\
  ov_isValid_grad (vptr this) = None /\
  ov_clearance (vptr this) = None /\
  ov_clearance_grad (vptr this) = None.

(** The class of [this] overrides, besides the pure virtual [isValid], only
    the one-argument [clearance]. *)
Definition overrides_only_clearance (this : StateValidityChecker) : Prop :=
  (exists f, ov_clearance (vptr this) = Some f) /\
  ov_clearance_grad (vptr this) = None /\
  ov_isValid_dist (vptr this) = None /\
  ov_isValid_grad (vptr this) = None.

(** *** Calls through the public interface *)

Inductive Call : Type :=
| Call_isValid (state : ptr)
| Call_isValid_dist (state : ptr) (dist : double)
| Call_isValid_grad (state : ptr) (dist : double) (gradient : GradientSlot)
    (gradientAvailable : bool)
| Call_clearance (state : ptr)
| Call_clearance_grad (state : ptr) (gradient : GradientSlot)
    (gradientAvailable : bool)
| Call_getSpecs.

Inductive Reply : Type :=
| Reply_isValid (r : bool)
| Reply_isValid_dist (r : bool) (dist : double)
| Reply_isValid_grad (r : bool) (dist : double) (gradient : GradientSlot)
    (gradientAvailable : bool)
| Reply_clearance (r : double)
| Reply_clearance_grad (r : double) (gradient : GradientSlot)
    (gradientAvailable : bool)
| Reply_getSpecs (r : StateValidityCheckerSpecs).

(** The state argument of a call, if it has one. *)
Definition state_of (q : Call) : option ptr :=
  match q with
  | Call_isValid s | Call_isValid_dist s _ | Call_isValid_grad s _ _ _
  | Call_clearance s | Call_clearance_grad s _ _ => Some s
  | Call_getSpecs => None
  end.

Definition invoke (this : StateValidityChecker) (q : Call) : M World Reply :=
  match q with
  | Call_isValid s =>
      r <- isValid this s ;; ret (Reply_isValid r)
  | Call_isValid_dist s d =>
      '(r, d') <- isValid_dist this s d ;; ret (Reply_isValid_dist r d')
  | Call_isValid_grad s d g ga =>
      '(r, d', g', ga') <- isValid_grad this s d g ga ;;
      ret (Reply_isValid_grad r d' g' ga')
  | Call_clearance s =>
      r <- clearance this s ;; ret (Reply_clearance r)
  | Call_clearance_grad s g ga =>
      '(r, g', ga') <- clearance_grad this s g ga ;;
      ret (Reply_clearance_grad r g' ga')
  | Call_getSpecs =>
      ret (Reply_getSpecs (getSpecs this))
  end.

(** Every member function of the interface is declared [const]: the call
    receives the object read-only and hands it back as it was; only the
    world may change. *)
Definition const_call (q : Call) (obj : StateValidityChecker * World)
  : option (Reply * (StateValidityChecker * World)) :=
  let (this, w) := obj in
  match invoke this q w with
  | Some (r, w') => Some (r, (this, w'))
  | None => None
  end.

(** A caller issuing the calls [qs] one after the other. *)
Fixpoint run (qs : list Call) (obj : StateValidityChecker * World)
  : option (list Reply * (StateValidityChecker * World)) :=
  match qs with
  | [] => Some ([], obj)
  | q :: qs' =>
      match const_call q obj with
      | Some (r, obj') =>
          match run qs' obj' with
          | Some (rs, obj'') => Some (r :: rs, obj'')
          | None => None
          end
      | None => None
      end
  end.

(** *** Where a call can fail *)


(** *** Member functions as they act on the object *)

(** A member function seen with the object it is called on: it receives the
    object and the world and returns, with its result, the object and the
    world it leaves.  A body that assigned a data member would return an
    object with that member changed. *)
Definition Member (A : Type) : Type :=
  StateValidityChecker * World ->
  option (A * (StateValidityChecker * World)).

(** [const StateValidityCheckerSpecs& getSpecs(void) const
     { return specs_; }]: the body reads [specs_] and assigns nothing. *)
Definition getSpecs_call : Member StateValidityCheckerSpecs :=
  fun obj => Some (specs_ (fst obj), obj).

(** [n] calls of the member [m] in a row, with the list of their results. *)
Fixpoint calls {A : Type} (n : nat) (m : Member A) : Member (list A) :=
  fun obj =>
    match n with
    | O => Some ([], obj)
    | S n' =>
        match m obj with
        | Some (r, obj') =>
            match calls n' m obj' with
            | Some (rs, obj'') => Some (r :: rs, obj'')
            | None => None
            end
        | None => None
        end
    end.

(** "[gradientAvailable] is set to true if [gradient] is updated", for the
    two members that take a gradient slot. *)
Definition clearance_flags_gradient_updates (this : StateValidityChecker)
  : Prop :=
  forall state gradient gradientAvailable w r gradient' gradientAvailable' w',
    clearance_grad this state gradient gradientAvailable w
      = Some ((r, gradient', gradientAvailable'), w') ->
    gradient' <> gradient -> gradientAvailable' = true.

Definition isValid_flags_gradient_updates (this : StateValidityChecker)
  : Prop :=
  forall state dist gradient gradientAvailable w
         r dist' gradient' gradientAvailable' w',
    isValid_grad this state dist gradient gradientAvailable w
      = Some ((r, dist', gradient', gradientAvailable'), w') ->
    gradient' <> gradient -> gradientAvailable' = true.

(** *** What the overriding members do to the world *)

(** [preserves I m]: whenever [m] returns from a world in [I], it leaves a
    world in [I]. *)
Definition preserves {A : Type} (I : World -> Prop) (m : M World A) : Prop :=
  forall w a w', I w -> m w = Some (a, w') -> I w'.

(** Every member the class of a checker defines keeps the world in [I],
    on every argument. *)
Definition overriders_preserve (I : World -> Prop) (ov : Overriders) : Prop :=
  (forall state, preserves I (ov_isValid ov state)) /\
  (forall f, ov_isValid_dist ov = Some f ->
             forall state dist, preserves I (f state dist)) /\
  (forall f, ov_isValid_grad ov = Some f ->
             forall state dist gradient gradientAvailable,
               preserves I (f state dist gradient gradientAvailable)) /\
  (forall f, ov_clearance ov = Some f ->
             forall state, preserves I (f state)) /\
  (forall f, ov_clearance_grad ov = Some f ->
             forall state gradient gradientAvailable,
               preserves I (f state gradient gradientAvailable)).

(** The members the class defines only read the world: whenever one returns,
    the world is the one it was called in. *)
Definition overriders_read_only (ov : Overriders) : Prop :=
  forall w0 : World, overriders_preserve (fun w => w = w0) ov.

(** What the all-valid checker answers to a call. *)
Definition AllValid_reply (q : Call) : Reply :=
  match q with
  | Call_isValid _ => Reply_isValid true
  | Call_isValid_dist _ _ => Reply_isValid_dist true 0%float
  | Call_isValid_grad _ _ gradient _ =>
      Reply_isValid_grad true 0%float gradient false
  | Call_clearance _ => Reply_clearance 0%float
  | Call_clearance_grad _ gradient _ =>
      Reply_clearance_grad 0%float gradient false
  | Call_getSpecs => Reply_getSpecs StateValidityCheckerSpecs_ctor
  end.

End Checker.

(** ** Concrete checkers

    Checkers over real-vector states, used to exercise the interface: a
    state is the list of its coordinates, and the world is the store of the
    [State] objects allocated so far, by address. *)

Module Demo.

Definition State : Type := list double.
Definition World : Type := list (N * State).

Fixpoint lookup (a : N) (w : World) : option State :=
  match w with
  | [] => None
  | (b, s) :: w' => if N.eqb a b then Some s else lookup a w'
  end.

(** Dereferencing a state pointer: no value for a null pointer or for an
    address at which no state lives. *)
Definition load (p : ptr) : M World State :=
  fun w =>
    match p with
    | nullptr => None
    | addr a =>
        match lookup a w with
        | Some s => Some (s, w)
        | None => None
        end
    end.

(** Euclidean norm of a state. *)
Definition norm (s : State) : double :=
  PrimFloat.sqrt
    (fold_right (fun x acc => PrimFloat.add (PrimFloat.mul x x) acc)
       0%float s).

Definition near : ptr := addr 1.
Definition far : ptr := addr 2.

Definition heap : World :=
  [ (0%N, [0%float; 0%float]);
    (1%N, [3%float; 0%float]);
    (2%N, [0%float; 7%float]) ].

(** The trivial checker, bound to a space information object at address 9. *)
Definition allValid : @StateValidityChecker State World :=
  AllValidStateValidityChecker_ctor (addr 9).

(** A disc of radius 5 around the origin: [clearance(s) = 5.0 - ||s||] and
    [isValid(s) = clearance(s) >= 0]; nothing else is overridden. *)
Definition Disc_clearance (state : ptr) : M World double :=
  s <- load state ;;
  ret (PrimFloat.sub 5%float (norm s)).

Definition Disc_isValid (state : ptr) : M World bool :=
  d <- Disc_clearance state ;;
  ret (PrimFloat.leb 0%float d).

Definition Disc_vtable : @Overriders State World :=
  {| ov_isValid := Disc_isValid;
     ov_isValid_dist := None;
     ov_isValid_grad := None;
     ov_clearance := Some Disc_clearance;
     ov_clearance_grad := None |}.

Definition disc : @StateValidityChecker State World :=
  StateValidityChecker_ctor Disc_vtable (addr 9).

(** A checker overriding only the gradient-returning [clearance]: it stores
    a unit gradient in the slot and sets [gradientAvailable = true]. *)
Definition Unit_clearance_grad (state : ptr) (gradient : option State)
  (gradientAvailable : bool) : M World (double * option State * bool) :=
  match gradient with
  | None => fun _ => None
  | Some _ => ret (1%float, Some [1%float; 0%float], true)
  end.

Definition Unit_vtable : @Overriders State World :=
  {| ov_isValid := fun _ => ret true;
     ov_isValid_dist := None;
     ov_isValid_grad := None;
     ov_clearance := None;
     ov_clearance_grad := Some Unit_clearance_grad |}.

Definition unitGradient : @StateValidityChecker State World :=
  StateValidityChecker_ctor Unit_vtable (addr 9).

(** A checker overriding only [isValid]: a state is valid when it lies within
    distance 5 of the origin. *)
Definition Ball_isValid (state : ptr) : M World bool :=
  s <- load state ;;
  ret (PrimFloat.leb (norm s) 5%float).

Definition Ball_vtable : @Overriders State World :=
  {| ov_isValid := Ball_isValid;
     ov_isValid_dist := None;
     ov_isValid_grad := None;
     ov_clearance := None;
     ov_clearance_grad := None |}.

Definition ball : @StateValidityChecker State World :=
  StateValidityChecker_ctor Ball_vtable (addr 9).





(** The slot a caller passes for the gradient, holding the zero vector. *)
Definition slot0 : option State := Some [0%float; 0%float].

(** What a derived class with exact clearance does to advertise it: the
    assignment [specs_.hasExactClearance = true]. *)
Definition declare_exact_clearance : @Member State World unit :=
  fun obj =>
    let (this, w) := obj in
    Some (tt,
          ({| si_ := si_ this;
              specs_ :=
                {| hasExactClearance := true;
                   hasBoundedApproximateClearance :=
                     hasBoundedApproximateClearance (specs_ this);
                   hasApproximateClearance :=
                     hasApproximateClearance (specs_ this);
                   hasGradientComputation :=
                     hasGradientComputation (specs_ this) |};
              vptr := vptr this |}, w)).

End Demo.

(** * Properties *)

(** ** Sequencing *)

Section Sequencing.

Context {World : Type}.

Lemma bind_Some {A B : Type} (m : M World A) (k : A -> M World B)
  (w w' : World) (b : B) :
  bind m k w = Some (b, w') <->
  exists a w1, m w = Some (a, w1) /\ k a w1 = Some (b, w').
Proof.
  unfold bind. split.
  - destruct (m w) as [[a w1]|] eqn:E; [| discriminate].
    intros K. exists a, w1. split; [reflexivity | exact K].
  - intros (a & w1 & E & K). rewrite E. exact K.
Qed.

Lemma bind_ret {A B : Type} (a : A) (k : A -> M World B) (w : World) :
  bind (ret a) k w = k a w.
Proof. reflexivity. Qed.

Lemma ret_Some {A : Type} (a b : A) (w w' : World) :
  ret a w = Some (b, w') <-> a = b /\ w = w'.
Proof.
  unfold ret. split.
  - intros E. injection E as -> ->. split; reflexivity.
  - intros [-> ->]. reflexivity.
Qed.


End Sequencing.

(** ** Members that are not overridden run the body of the base class *)

Section Inherited.

Context {State World : Type}.

Implicit Types (this : @StateValidityChecker State World).
Implicit Types (state : ptr) (dist : double) (w : World).
Implicit Types (gradient : @GradientSlot State) (gradientAvailable : bool).

Lemma clearance_inherited this state :
  ov_clearance (vptr this) = None ->
  clearance this state = ret 0%float.
Proof. unfold clearance. intros ->. reflexivity. Qed.

Lemma clearance_overridden this state f :
  ov_clearance (vptr this) = Some f ->
  clearance this state = f state.
Proof. unfold clearance. intros ->. reflexivity. Qed.

Lemma clearance_grad_inherited this state gradient gradientAvailable :
  ov_clearance_grad (vptr this) = None ->
  clearance_grad this state gradient gradientAvailable =
  (r <- clearance this state ;; ret (r, gradient, false)).
Proof. unfold clearance_grad. intros ->. reflexivity. Qed.

Lemma isValid_dist_inherited this state dist :
  ov_isValid_dist (vptr this) = None ->
  isValid_dist this state dist =
  (d <- clearance this state ;; r <- isValid this state ;; ret (r, d)).
Proof. unfold isValid_dist. intros ->. reflexivity. Qed.

Lemma isValid_grad_inherited this state dist gradient gradientAvailable :
  ov_isValid_grad (vptr this) = None ->
  isValid_grad this state dist gradient gradientAvailable =
  ('(d, g, ga) <- clearance_grad this state gradient gradientAvailable ;;
   r <- isValid this state ;;
   ret (r, d, g, ga)).
Proof. unfold isValid_grad. intros ->. reflexivity. Qed.

Lemma clearance_grad_only_isValid this state gradient gradientAvailable :
  overrides_only_isValid this ->
  clearance_grad this state gradient gradientAvailable =
  ret (0%float, gradient, false).
Proof.
  intros (_ & _ & Hc & Hg).
  rewrite (clearance_grad_inherited _ _ _ _ Hg).
  rewrite (clearance_inherited _ _ Hc). reflexivity.
Qed.

(** An inherited body has no failing path of its own. *)





End Inherited.

(** ** The default bodies *)

Section Defaults.

Context {State World : Type}.

Implicit Types (this : @StateValidityChecker State World).
Implicit Types (state : ptr) (dist : double) (w : World).
Implicit Types (gradient : @GradientSlot State) (gradientAvailable : bool).

(** C1.  For a checker overriding only [isValid], the two-result [isValid]
    runs [clearance(state)] and then the one-argument [isValid(state)]: it
    returns [(r, d)] exactly when [clearance(state)] returns [d] (leaving
    the world as it was) and [isValid(state)] returns [r]. *)
Theorem isValid_dist_only_isValid this :
  overrides_only_isValid this ->
  forall state dist w,
    isValid_dist this state dist w =
      (d <- clearance this state ;; r <- isValid this state ;; ret (r, d)) w
    /\
    forall r d w',
      returns (isValid_dist this state dist) w (r, d) w' <->
      returns (clearance this state) w d w /\
      returns (isValid this state) w r w'.
Proof.
  intros (Hd & _ & Hc & _) state dist w.
  rewrite (isValid_dist_inherited _ _ _ Hd).
  split; [reflexivity |].
  intros r d w'. unfold returns.
  rewrite (clearance_inherited _ _ Hc), bind_ret.
  rewrite bind_Some. split.
  - intros (b & w1 & Hb & K). apply ret_Some in K as [K ->].
    injection K as -> <-. split; [reflexivity | exact Hb].
  - intros [Hz Hb]. apply ret_Some in Hz as [<- _].
    exists r, w'. split; [exact Hb | reflexivity].
Qed.

(** C2.  For a checker that does not override the three-result [isValid],
    that overload runs the gradient-returning [clearance] on the caller's
    slots and then the one-argument [isValid(state)]; the distance, the
    gradient slot and the flag it hands back are those the [clearance]
    overload left.  It makes no store to the gradient slot of its own, so
    the slot is written only when the gradient is available: given the rule
    the header sets for the [clearance] overload ("[gradientAvailable] is
    set to true if [gradient] is updated"), the same rule holds of
    [isValid]; and when the [clearance] overload is inherited too the slot
    is untouched and the flag is false.  When only [isValid] is overridden
    the flag is false, the slot is untouched and the distance is
    [clearance(state)]. *)
Theorem isValid_grad_not_overridden this :
  ov_isValid_grad (vptr this) = None ->
  (forall state dist gradient gradientAvailable w,
     isValid_grad this state dist gradient gradientAvailable w =
       ('(d, g, ga) <- clearance_grad this state gradient gradientAvailable ;;
        r <- isValid this state ;;
        ret (r, d, g, ga)) w
     /\
     (forall r d g ga w',
        returns (isValid_grad this state dist gradient gradientAvailable) w
          (r, d, g, ga) w' <->
        exists w1,
          returns (clearance_grad this state gradient gradientAvailable) w
            (d, g, ga) w1 /\
          returns (isValid this state) w1 r w')
     /\
     (ov_clearance_grad (vptr this) = None ->
      forall r d g ga w',
        returns (isValid_grad this state dist gradient gradientAvailable) w
          (r, d, g, ga) w' ->
        g = gradient /\ ga = false)
     /\
     (overrides_only_isValid this ->
      forall r d g ga w',
        returns (isValid_grad this state dist gradient gradientAvailable) w
          (r, d, g, ga) w' <->
        returns (isValid this state) w r w' /\
        returns (clearance this state) w d w /\
        g = gradient /\ ga = false))
  /\
  (clearance_flags_gradient_updates this ->
   isValid_flags_gradient_updates this).
Proof.
  intros Hi.
  assert (Seq : forall state dist gradient gradientAvailable w r d g ga w',
             returns (isValid_grad this state dist gradient gradientAvailable)
               w (r, d, g, ga) w' <->
             exists w1,
               returns (clearance_grad this state gradient gradientAvailable)
                 w (d, g, ga) w1 /\
               returns (isValid this state) w1 r w').
  { intros state dist gradient gradientAvailable w r d g ga w'.
    unfold returns. rewrite (isValid_grad_inherited _ _ _ _ _ Hi).
    rewrite bind_Some. split.
    - intros ([[d0 g0] ga0] & w1 & Hc & K).
      apply bind_Some in K as (b & w2 & Hb & K).
      apply ret_Some in K as [K ->]. injection K as -> -> -> ->.
      exists w1. split; assumption.
    - intros (w1 & Hc & Hb). exists (d, g, ga), w1. split; [exact Hc |].
      apply bind_Some. exists r, w'. split; [exact Hb | reflexivity]. }
  split.
  - intros state dist gradient gradientAvailable w.
    split; [rewrite (isValid_grad_inherited _ _ _ _ _ Hi); reflexivity |].
    split; [apply Seq |].
    split.
    + intros Hg r d g ga w' H.
      apply Seq in H as (w1 & Hc & _). unfold returns in Hc.
      rewrite (clearance_grad_inherited _ _ _ _ Hg) in Hc.
      apply bind_Some in Hc as (d0 & w2 & _ & K).
      apply ret_Some in K as [K _]. injection K as _ -> ->.
      split; reflexivity.
    + intros Ho r d g ga w'. rewrite Seq. unfold returns.
      rewrite (clearance_grad_only_isValid _ _ _ Ho).
      destruct Ho as (_ & _ & Hc & _).
      rewrite (clearance_inherited _ _ Hc). split.
      * intros (w1 & K & Hb). apply ret_Some in K as [K <-].
        injection K as <- <- <-. repeat split. exact Hb.
      * intros (Hb & Hz & -> & ->). apply ret_Some in Hz as [<- _].
        exists w. split; [reflexivity | exact Hb].
  - intros Hc state dist gradient gradientAvailable w r d g ga w' H Hne.
    apply Seq in H as (w1 & H1 & _).
    exact (Hc _ _ _ _ _ _ _ _ H1 Hne).
Qed.

(** C3.  For a checker overriding only [isValid], [clearance(state)] returns
    0.0 and the gradient-returning [clearance] returns 0.0 with
    [gradientAvailable == false], for every state (and leaves the gradient
    slot and the world untouched). *)
Theorem clearance_only_isValid this :
  overrides_only_isValid this ->
  forall state gradient gradientAvailable w,
    clearance this state w = Some (0%float, w) /\
    clearance_grad this state gradient gradientAvailable w =
      Some ((0%float, gradient, false), w).
Proof.
  intros H state gradient gradientAvailable w. split.
  - destruct H as (_ & _ & Hc & _).
    rewrite (clearance_inherited _ _ Hc). reflexivity.
  - rewrite (clearance_grad_only_isValid _ _ _ H). reflexivity.
Qed.

(** C4.  For a checker overriding only the one-argument [clearance], the
    gradient-returning [clearance] returns what the overridden
    [clearance(state)] returns and marks the gradient unavailable, for every
    state. *)
Theorem clearance_grad_only_clearance this :
  overrides_only_clearance this ->
  forall state gradient gradientAvailable w,
    (forall f, ov_clearance (vptr this) = Some f ->
               clearance this state = f state) /\
    clearance_grad this state gradient gradientAvailable w =
      (r <- clearance this state ;; ret (r, gradient, false)) w /\
    forall r gradient' gradientAvailable' w',
      returns (clearance_grad this state gradient gradientAvailable) w
        (r, gradient', gradientAvailable') w' <->
      returns (clearance this state) w r w' /\
      gradient' = gradient /\ gradientAvailable' = false.
Proof.
  intros (_ & Hg & _) state gradient gradientAvailable w.
  split; [intros f Hf; exact (clearance_overridden _ _ Hf) |].
  rewrite (clearance_grad_inherited _ _ _ _ Hg).
  split; [reflexivity |].
  intros r g' ga' w'. unfold returns. rewrite bind_Some. split.
  - intros (d & w1 & Hd & K). apply ret_Some in K as [K ->].
    injection K as -> -> <-. repeat split. exact Hd.
  - intros (Hd & -> & ->). exists r, w'. split; [exact Hd | reflexivity].
Qed.

(** C5.  The all-valid checker: [isValid(state)] returns true for every
    state; it overrides nothing else, so [clearance(state)] is 0.0 and the
    gradient is never available, for every state. *)
Theorem AllValid_behaviour (si : ptr) (sp : SpaceInformationPtr) :
  forall state dist gradient gradientAvailable w,
    let this : @StateValidityChecker State World :=
      AllValidStateValidityChecker_ctor si in
    isValid this state w = Some (true, w) /\
    clearance this state w = Some (0%float, w) /\
    clearance_grad this state gradient gradientAvailable w =
      Some ((0%float, gradient, false), w) /\
    isValid_dist this state dist w = Some ((true, 0%float), w) /\
    isValid_grad this state dist gradient gradientAvailable w =
      Some ((true, 0%float, gradient, false), w) /\
    overrides_only_isValid this /\
    AllValidStateValidityChecker_ctor_shared sp = 
      AllValidStateValidityChecker_ctor (State := State) (World := World)
        (get sp).
Proof.
  intros state dist gradient gradientAvailable w this.
  repeat split.
Qed.

(** C6.  A checker built by the constructors, with no assignment to the
    flags afterwards, reports through [getSpecs()] a descriptor whose four
    flags are all false. *)
Theorem getSpecs_fresh (ov : @Overriders State World) (si : ptr)
  (sp : SpaceInformationPtr) :
  getSpecs (StateValidityChecker_ctor ov si) = mkSpecs false false false false
  /\
  getSpecs (StateValidityChecker_ctor_shared ov sp)
    = mkSpecs false false false false
  /\
  getSpecs (AllValidStateValidityChecker_ctor (State := State)
              (World := World) si)
    = mkSpecs false false false false
  /\
  getSpecs (AllValidStateValidityChecker_ctor_shared (State := State)
              (World := World) sp)
    = mkSpecs false false false false.
Proof. repeat split. Qed.

(** C7.  [getSpecs()] never mutates the checker: a call returns [specs_]
    and leaves the object (its context pointer, its descriptor, its table)
    and the world exactly as they were, so any number of [getSpecs()] calls
    on the same checker return equal descriptors, the one the checker had
    before the first call, and leave every field unchanged. *)
Theorem getSpecs_call_stable this w :
  getSpecs_call (this, w) = Some (specs_ this, (this, w)) /\
  forall n,
    calls n getSpecs_call (this, w) =
      Some (repeat (specs_ this) n, (this, w)) /\
    forall rs this' w',
      calls n getSpecs_call (this, w) = Some (rs, (this', w')) ->
      si_ this' = si_ this /\ specs_ this' = specs_ this /\
      vptr this' = vptr this /\ w' = w /\
      length rs = n /\ forall r, In r rs -> r = getSpecs this.
Proof.
  split; [reflexivity |].
  assert (E : forall n, calls n getSpecs_call (this, w) =
                        Some (repeat (specs_ this) n, (this, w))).
  { induction n as [| n IH]; [reflexivity |].
    cbn [calls repeat]. unfold getSpecs_call at 1. cbn [fst].
    rewrite IH. reflexivity. }
  intros n. split; [exact (E n) |].
  intros rs this' w' H. rewrite (E n) in H.
  assert (Hrs : rs = repeat (specs_ this) n) by congruence.
  assert (Ht : this' = this) by congruence.
  assert (Hw : w' = w) by congruence.
  subst rs this' w'. repeat split.
  - apply repeat_length.
  - intros r Hr. exact (repeat_spec _ _ _ Hr).
Qed.


(** C10.  The all-valid checker's [isValid] does not depend on its argument:
    for any two state pointers, a null pointer or the address of no state
    included, and whatever the memory holds, it returns true and leaves the
    world as it was. *)
Theorem AllValid_isValid_ignores_state (si : ptr) :
  forall (s1 s2 : ptr) (w1 w2 : World),
    let this : @StateValidityChecker State World :=
      AllValidStateValidityChecker_ctor si in
    option_map fst (isValid this s1 w1) = option_map fst (isValid this s2 w2)
    /\
    isValid this s1 w1 = Some (true, w1) /\
    isValid this s2 w2 = Some (true, w2) /\
    isValid this nullptr w1 = Some (true, w1).
Proof. intros s1 s2 w1 w2 this. repeat split. Qed.

End Defaults.

(** ** How the default bodies compose *)

Section Composition.

Context {State World : Type}.

Implicit Types (this : @StateValidityChecker State World).
Implicit Types (state : ptr) (dist : double) (w : World).
Implicit Types (gradient : @GradientSlot State) (gradientAvailable : bool).
Implicit Types (I : World -> Prop).

Lemma preserves_ret {A : Type} I (a : A) : preserves I (ret a).
Proof. intros w b w' Hw E. apply ret_Some in E as [_ <-]. exact Hw. Qed.

Lemma preserves_bind {A B : Type} I (m : M World A) (k : A -> M World B) :
  preserves I m -> (forall a, preserves I (k a)) -> preserves I (bind m k).
Proof.
  intros Hm Hk w b w' Hw E.
  apply bind_Some in E as (a & w1 & E1 & E2).
  exact (Hk a w1 b w' (Hm w a w1 Hw E1) E2).
Qed.

Lemma isValid_preserves this I state :
  overriders_preserve I (vptr this) -> preserves I (isValid this state).
Proof. intros (H & _). exact (H state). Qed.

Lemma clearance_preserves this I state :
  overriders_preserve I (vptr this) -> preserves I (clearance this state).
Proof.
  intros (_ & _ & _ & H & _). unfold clearance.
  destruct (ov_clearance (vptr this)) as [f |].
  - exact (H f eq_refl state).
  - apply preserves_ret.
Qed.

Lemma clearance_grad_preserves this I state gradient gradientAvailable :
  overriders_preserve I (vptr this) ->
  preserves I (clearance_grad this state gradient gradientAvailable).
Proof.
  intros H. unfold clearance_grad.
  destruct (ov_clearance_grad (vptr this)) as [f |] eqn:E.
  - destruct H as (_ & _ & _ & _ & H). exact (H f E state _ _).
  - apply preserves_bind; [apply clearance_preserves; exact H |].
    intros r. apply preserves_ret.
Qed.







(** X1.  When a class inherits both richer [isValid] overloads and the
    gradient-returning [clearance], the three-result [isValid] is the
    two-result one: it returns the same boolean and distance and leaves the
    same world, never touches the gradient slot and always reports the
    gradient unavailable, whatever values the caller's output variables held
    and whether or not the one-argument [clearance] is overridden. *)
Theorem isValid_grad_agrees_with_isValid_dist this :
  ov_isValid_dist (vptr this) = None ->
  ov_isValid_grad (vptr this) = None ->
  ov_clearance_grad (vptr this) = None ->
  forall state dist dist0 gradient gradientAvailable w r d g ga w',
    returns (isValid_grad this state dist gradient gradientAvailable) w
      (r, d, g, ga) w' <->
    returns (isValid_dist this state dist0) w (r, d) w' /\
    g = gradient /\ ga = false.
Proof.
  intros Hd Hg Hcg state dist dist0 gradient gradientAvailable w r d g ga w'.
  unfold returns.
  rewrite (isValid_grad_inherited _ _ _ _ _ Hg).
  rewrite (clearance_grad_inherited _ _ _ _ Hcg).
  rewrite (isValid_dist_inherited _ _ _ Hd).
  unfold bind, ret.
  destruct (clearance this state w) as [[d1 w1] |];
    [destruct (isValid this state w1) as [[b w2] |] |].
  - split.
    + intros E. injection E as -> -> -> -> ->. repeat split.
    + intros (E & -> & ->). injection E as -> -> ->. reflexivity.
  - split; [discriminate | intros (E & _); discriminate E].
  - split; [discriminate | intros (E & _); discriminate E].
Qed.

(** X2.  The default bodies assign their output parameters on every path:
    what the inherited two-result [isValid] returns does not depend on the
    value [dist] held at the call, what the inherited gradient-returning
    [clearance] returns does not depend on the value [gradientAvailable]
    held, and the inherited three-result [isValid] depends on neither when
    the gradient-returning [clearance] is inherited as well. *)
Theorem defaults_ignore_output_contents this :
  (ov_isValid_dist (vptr this) = None ->
   forall state dist dist',
     isValid_dist this state dist = isValid_dist this state dist') /\
  (ov_clearance_grad (vptr this) = None ->
   forall state gradient gradientAvailable gradientAvailable',
     clearance_grad this state gradient gradientAvailable =
     clearance_grad this state gradient gradientAvailable') /\
  (ov_isValid_grad (vptr this) = None ->
   forall state dist dist' gradient gradientAvailable,
     isValid_grad this state dist gradient gradientAvailable =
     isValid_grad this state dist' gradient gradientAvailable) /\
  (ov_isValid_grad (vptr this) = None ->
   ov_clearance_grad (vptr this) = None ->
   forall state dist dist' gradient gradientAvailable gradientAvailable',
     isValid_grad this state dist gradient gradientAvailable =
     isValid_grad this state dist' gradient gradientAvailable').
Proof.
  repeat split.
  - intros H state dist dist'.
    rewrite !(isValid_dist_inherited _ _ _ H). reflexivity.
  - intros H state gradient ga ga'.
    rewrite !(clearance_grad_inherited _ _ _ _ H). reflexivity.
  - intros H state dist dist' gradient ga.
    rewrite !(isValid_grad_inherited _ _ _ _ _ H). reflexivity.
  - intros H Hc state dist dist' gradient ga ga'.
    rewrite !(isValid_grad_inherited _ _ _ _ _ H).
    rewrite !(clearance_grad_inherited _ _ _ _ Hc). reflexivity.
Qed.



(** X5.  For a checker whose members only read the world and that inherits
    the two richer [isValid] overloads, the three overloads report the same
    validity: the richer ones return exactly when the one-argument
    [isValid] and the matching [clearance] overload return, with their
    results, and leave the world as it was. *)
Theorem isValid_overloads_agree this :
  overriders_read_only (vptr this) ->
  ov_isValid_dist (vptr this) = None ->
  ov_isValid_grad (vptr this) = None ->
  forall state dist gradient gradientAvailable w,
    (forall r d w',
       returns (isValid_dist this state dist) w (r, d) w' <->
       w' = w /\
       returns (isValid this state) w r w /\
       returns (clearance this state) w d w) /\
    (forall r d g ga w',
       returns (isValid_grad this state dist gradient gradientAvailable) w
         (r, d, g, ga) w' <->
       w' = w /\
       returns (isValid this state) w r w /\
       returns (clearance_grad this state gradient gradientAvailable) w
         (d, g, ga) w).
Proof.
  intros H Hd Hg state dist gradient gradientAvailable w.
  assert (Rv : forall w0 r w1, isValid this state w0 = Some (r, w1) -> w1 = w0).
  { intros w0 r w1 E.
    exact (@isValid_preserves this (fun v => v = w0) state (H w0)
             w0 r w1 eq_refl E). }
  assert (Rc : forall w0 d w1,
             clearance this state w0 = Some (d, w1) -> w1 = w0).
  { intros w0 d w1 E.
    exact (@clearance_preserves this (fun v => v = w0) state (H w0)
             w0 d w1 eq_refl E). }
  assert (Rg : forall w0 x w1,
             clearance_grad this state gradient gradientAvailable w0
               = Some (x, w1) -> w1 = w0).
  { intros w0 x w1 E.
    exact (@clearance_grad_preserves this (fun v => v = w0) state gradient
             gradientAvailable (H w0) w0 x w1 eq_refl E). }
  unfold returns. split.
  - intros r d w'. rewrite (isValid_dist_inherited _ _ _ Hd).
    rewrite bind_Some. split.
    + intros (d1 & w1 & Ec & K). apply bind_Some in K as (b & w2 & Eb & K).
      apply ret_Some in K as [K ->]. injection K as -> ->.
      pose proof (Rc _ _ _ Ec) as ->. pose proof (Rv _ _ _ Eb) as ->.
      repeat split; assumption.
    + intros (-> & Eb & Ec). exists d, w. split; [exact Ec |].
      apply bind_Some. exists r, w. split; [exact Eb | reflexivity].
  - intros r d g ga w'. rewrite (isValid_grad_inherited _ _ _ _ _ Hg).
    rewrite bind_Some. split.
    + intros ([[d1 g1] ga1] & w1 & Ec & K).
      apply bind_Some in K as (b & w2 & Eb & K).
      apply ret_Some in K as [K ->]. injection K as -> -> -> ->.
      pose proof (Rg _ _ _ Ec) as ->. pose proof (Rv _ _ _ Eb) as ->.
      repeat split; assumption.
    + intros (-> & Eb & Ec). exists (d, g, ga), w. split; [exact Ec |].
      apply bind_Some. exists r, w. split; [exact Eb | reflexivity].
Qed.

(** X6.  The all-valid checker answers every sequence of calls, whatever the
    state pointers and the world: every validity is true, every distance 0.0,
    no gradient is ever available or written, the descriptor has all flags
    false, and checker and world are left as they were. *)
Theorem AllValid_run (si : ptr) (qs : list (@Call State)) (w : World) :
  run qs (AllValidStateValidityChecker_ctor si, w) =
    Some (map AllValid_reply qs, (AllValidStateValidityChecker_ctor si, w)).
Proof.
  induction qs as [| q qs IH]; [reflexivity |].
  cbn [run map]. unfold const_call at 1.
  replace (invoke (AllValidStateValidityChecker_ctor si) q w)
    with (Some (@AllValid_reply State q, w))
    by (destruct q; reflexivity).
  rewrite IH. reflexivity.
Qed.

(** X7.  Overriding only the one-argument [clearance] upgrades both richer
    [isValid] overloads: each runs the class's [clearance] and then the
    class's [isValid] in the world [clearance] left, and returns the distance
    of the former with the boolean of the latter; the three-result overload
    moreover leaves the gradient slot alone and reports the gradient
    unavailable. *)
Theorem only_clearance_upgrades_isValid this f :
  overrides_only_clearance this ->
  ov_clearance (vptr this) = Some f ->
  forall state dist gradient gradientAvailable w r d w',
    (returns (isValid_dist this state dist) w (r, d) w' <->
     exists w1, f state w = Some (d, w1) /\
                ov_isValid (vptr this) state w1 = Some (r, w')) /\
    (forall g ga,
       returns (isValid_grad this state dist gradient gradientAvailable) w
         (r, d, g, ga) w' <->
       (exists w1, f state w = Some (d, w1) /\
                   ov_isValid (vptr this) state w1 = Some (r, w')) /\
       g = gradient /\ ga = false).
Proof.
  intros (_ & Hcg & Hd & Hg) Hf state dist gradient gradientAvailable w r d w'.
  assert (D : returns (isValid_dist this state dist) w (r, d) w' <->
              exists w1, f state w = Some (d, w1) /\
                         ov_isValid (vptr this) state w1 = Some (r, w')).
  { unfold returns. rewrite (isValid_dist_inherited _ _ _ Hd).
    rewrite (clearance_overridden _ _ Hf). unfold isValid.
    rewrite bind_Some. split.
    - intros (d1 & w1 & Ec & K). apply bind_Some in K as (b & w2 & Eb & K).
      apply ret_Some in K as [K ->]. injection K as -> ->.
      exists w1. split; assumption.
    - intros (w1 & Ec & Eb). exists d, w1. split; [exact Ec |].
      apply bind_Some. exists r, w'. split; [exact Eb | reflexivity]. }
  split; [exact D |].
  intros g ga. rewrite <- D. unfold returns.
  rewrite (isValid_grad_inherited _ _ _ _ _ Hg).
  rewrite (clearance_grad_inherited _ _ _ _ Hcg).
  rewrite (isValid_dist_inherited _ _ _ Hd).
  unfold bind, ret.
  destruct (clearance this state w) as [[d1 w1] |];
    [destruct (isValid this state w1) as [[b w2] |] |].
  - split.
    + intros E. injection E as -> -> -> -> ->. repeat split.
    + intros (E & -> & ->). injection E as -> -> ->. reflexivity.
  - split; [discriminate | intros (E & _); discriminate E].
  - split; [discriminate | intros (E & _); discriminate E].
Qed.

End Composition.

(** ** The concrete checkers at work *)

Import Demo.

(** A trivial checker asked about 100 distinct states answers true 100
    times. *)
Example allValid_hundred_states :
  run (map (fun a => Call_isValid (addr (N.of_nat a))) (seq 0 100))
      (allValid, heap)
  = Some (repeat (Reply_isValid true) 100, (allValid, heap)).
Proof. vm_compute. reflexivity. Qed.

(** The disc checker: a state at distance 3 from the origin is valid with
    clearance 2.0, one at distance 7 is invalid with clearance -2.0. *)
Example disc_near :
  isValid_dist disc near 0%float heap = Some ((true, 2%float), heap).
Proof. reflexivity. Qed.

Example disc_far :
  isValid_dist disc far 0%float heap = Some ((false, (-2)%float), heap).
Proof. reflexivity. Qed.

(** Unlike the trivial checker, the disc checker reads its argument: it has
    no result on a null pointer. *)
Example disc_null : isValid disc nullptr heap = None.
Proof. reflexivity. Qed.

Example allValid_null : isValid allValid nullptr heap = Some (true, heap).
Proof. reflexivity. Qed.

(** The checker overriding only the gradient-returning [clearance]: the
    three-result [isValid] surfaces its unit gradient and its flag. *)
Example unitGradient_surfaces :
  isValid_grad unitGradient near 0%float slot0 false heap
  = Some ((true, 1%float, Some [1%float; 0%float], true), heap).
Proof. reflexivity. Qed.

Lemma ball_overrides_only_isValid : overrides_only_isValid ball.
Proof. repeat split. Qed.

Lemma disc_overrides_only_clearance : overrides_only_clearance disc.
Proof. split; [exists Disc_clearance; reflexivity | repeat split]. Qed.

(** C1 at the ball checker and the state at distance 3. *)
Lemma isValid_dist_only_isValid_witness :
  overrides_only_isValid ball /\
  returns (isValid_dist ball near 9%float) heap (true, 0%float) heap.
Proof.
  split; [exact ball_overrides_only_isValid |].
  apply (proj2 (isValid_dist_only_isValid ball_overrides_only_isValid
                  near 9%float heap)).
  split; reflexivity.
Defined.

(** C3 at the ball checker and the state at distance 7. *)
Lemma clearance_only_isValid_witness :
  overrides_only_isValid ball /\
  clearance ball far heap = Some (0%float, heap) /\
  clearance_grad ball far slot0 true heap = Some ((0%float, slot0, false), heap).
Proof.
  split; [exact ball_overrides_only_isValid |].
  exact (clearance_only_isValid ball_overrides_only_isValid
           far slot0 true heap).
Defined.

(** C4 at the disc checker and the state at distance 3. *)
Lemma clearance_grad_only_clearance_witness :
  overrides_only_clearance disc /\
  returns (clearance_grad disc near slot0 true) heap
    (2%float, slot0, false) heap.
Proof.
  split; [exact disc_overrides_only_clearance |].
  apply (proj2 (proj2 (clearance_grad_only_clearance
                         disc_overrides_only_clearance near slot0 true heap))).
  repeat split.
Defined.

Lemma unitGradient_flags_updates :
  clearance_flags_gradient_updates unitGradient.
Proof.
  intros state gradient gradientAvailable w r g' ga' w' E _.
  cbv [clearance_grad vptr unitGradient StateValidityChecker_ctor
         Unit_vtable ov_clearance_grad Unit_clearance_grad] in E.
  destruct gradient as [g |]; [| discriminate E].
  exact (eq_sym (f_equal (fun o => match o with
                                   | Some ((_, _, b), _) => b
                                   | None => true
                                   end) E)).
Qed.

(** C2 at the checker overriding only the gradient-returning [clearance],
    which keeps the header's rule: the three-result [isValid] surfaces its
    unit gradient with the flag set, and keeps the rule too. *)
Lemma isValid_grad_not_overridden_witness :
  ov_isValid_grad (vptr unitGradient) = None /\
  clearance_flags_gradient_updates unitGradient /\
  returns (isValid_grad unitGradient near 0%float slot0 false) heap
    (true, 1%float, Some [1%float; 0%float], true) heap /\
  isValid_flags_gradient_updates unitGradient.
Proof.
  split; [reflexivity |].
  split; [exact unitGradient_flags_updates |].
  split.
  - apply (proj1 (proj2 (proj1 (isValid_grad_not_overridden
                                  unitGradient eq_refl)
                           near 0%float slot0 false heap))).
    exists heap. split; reflexivity.
  - exact (proj2 (isValid_grad_not_overridden unitGradient eq_refl)
             unitGradient_flags_updates).
Defined.

(** An assignment to a flag is visible through [getSpecs()]: the descriptor
    changes only when a member assigns it. *)
Example getSpecs_call_after_assignment :
  match declare_exact_clearance (disc, heap) with
  | Some (_, obj) => option_map fst (getSpecs_call obj)
  | None => None
  end = Some (mkSpecs true false false false).
Proof. reflexivity. Qed.

(** C7 at the disc checker: three [getSpecs()] calls in a row. *)
Lemma getSpecs_call_stable_witness :
  calls 3 getSpecs_call (disc, heap) =
    Some (repeat (mkSpecs false false false false) 3, (disc, heap)) /\
  si_ disc = addr 9 /\
  forall r, In r (repeat (mkSpecs false false false false) 3) ->
            r = getSpecs disc.
Proof.
  split; [reflexivity |]. split; [reflexivity |].
  exact (proj2 (proj2 (proj2 (proj2 (proj2
           (proj2 (proj2 (@getSpecs_call_stable State World disc heap) 3)
              (repeat (mkSpecs false false false false) 3) disc heap
              eq_refl)))))).
Defined.



(** ** The composition properties at the concrete checkers *)

Lemma disc_overriders_read_only : overriders_read_only (vptr disc).
Proof.
  intros w0. repeat split; try (intros f Hf; discriminate Hf).
  - intros state w a w' -> E. cbv [vptr disc StateValidityChecker_ctor
      Disc_vtable ov_isValid Disc_isValid Disc_clearance bind ret load] in E.
    destruct state as [| a0]; [discriminate E |].
    destruct (lookup a0 w0); [| discriminate E].
    congruence.
  - intros f Hf state w a w' -> E. injection Hf as <-.
    cbv [Disc_clearance bind ret load] in E.
    destruct state as [| a0]; [discriminate E |].
    destruct (lookup a0 w0); [| discriminate E].
    congruence.
Qed.


(** X1 at the disc checker and the state at distance 7. *)
Lemma isValid_grad_agrees_with_isValid_dist_witness :
  ov_isValid_dist (vptr disc) = None /\
  ov_isValid_grad (vptr disc) = None /\
  ov_clearance_grad (vptr disc) = None /\
  returns (isValid_grad disc far 0%float slot0 true) heap
    (false, (-2)%float, slot0, false) heap.
Proof.
  do 3 (split; [reflexivity |]).
  apply (proj2 (@isValid_grad_agrees_with_isValid_dist State World disc
                  eq_refl eq_refl eq_refl far 0%float 9%float slot0 true heap
                  false (-2)%float slot0 false heap)).
  repeat split.
Defined.

(** X2 at the disc checker. *)
Lemma defaults_ignore_output_contents_witness :
  ov_isValid_dist (vptr disc) = None /\
  isValid_dist disc near 0%float = isValid_dist disc near 9%float.
Proof.
  split; [reflexivity |].
  exact (proj1 (@defaults_ignore_output_contents State World disc)
           eq_refl near 0%float 9%float).
Defined.



(** X5 at the disc checker and the state at distance 3. *)
Lemma isValid_overloads_agree_witness :
  overriders_read_only (vptr disc) /\
  ov_isValid_dist (vptr disc) = None /\
  ov_isValid_grad (vptr disc) = None /\
  returns (isValid_dist disc near 0%float) heap (true, 2%float) heap.
Proof.
  split; [exact disc_overriders_read_only |].
  split; [reflexivity |]. split; [reflexivity |].
  apply (proj2 (proj1 (@isValid_overloads_agree State World disc
                         disc_overriders_read_only eq_refl eq_refl
                         near 0%float slot0 true heap)
                  true 2%float heap)).
  repeat split.
Defined.

(** X7 at the disc checker and the state at distance 3. *)
Lemma only_clearance_upgrades_isValid_witness :
  overrides_only_clearance disc /\
  ov_clearance (vptr disc) = Some Disc_clearance /\
  returns (isValid_grad disc near 0%float slot0 true) heap
    (true, 2%float, slot0, false) heap.
Proof.
  split; [exact disc_overrides_only_clearance |].
  split; [reflexivity |].
  apply (proj2 (@only_clearance_upgrades_isValid State World disc
                  Disc_clearance disc_overrides_only_clearance eq_refl
                  near 0%float slot0 true heap true 2%float heap)
           slot0 false).
  split; [exists heap; split; reflexivity | split; reflexivity].
Defined.
